(** * enfugue.diffusion.support.model

    A shallow embedding of [src/python/enfugue/diffusion/support/model.py]:
    the two base classes [SupportModelImageProcessor] and [SupportModel],
    with Python's attribute protocol, exceptions and the generator-based
    context manager written out as explicit state passing. *)

From stdpp Require Import gmap strings list fin_maps.
From Stdlib Require Import Ascii String.

Open Scope string_scope.

(** ** Python values *)

(** [torch.device]: the code only reads [device.type]. *)
Record torch_device := { type : string; index : option nat }.

(** [torch.dtype] tags. *)
Inductive torch_dtype :=
| float16 | bfloat16 | float32 | float64 | int8 | int32 | int64.

(** The values an attribute can hold.  A processor object carries the
    keyword arguments it was built with ([self.kwargs = kwargs]). *)
#[warnings="-register-all"]
Inductive value :=
| VNone
| VBool (b : bool)
| VInt (z : Z)
| VStr (s : string)
| VDevice (d : torch_device)
| VDtype (t : torch_dtype)
| VProcessor (kwargs : list (string * value)).

(** [v is not None] *)
Definition is_not_None (v : value) : bool :=
  match v with
  | VNone => false
  | _ => true
  end.

(** ** Exceptions *)

Inductive exn :=
| AttributeError (name : string)
| NotImplementedError (msg : string)
| RuntimeError (msg : string)
| KeyError (key : string)
| KeyboardInterrupt
| OtherError (cls msg : string).

#[global] Instance exn_eq_dec : EqDecision exn.
Proof. solve_decision. Defined.

(** ** The world: one instance and the effects it has caused *)

(** Calls into the ML runtime and the garbage collector. *)
Inductive extern :=
| torch_cuda_empty_cache
| torch_mps_empty_cache
| gc_collect.

(** Observable effects, in program order. *)
Inductive event :=
| EvSetAttr (name : string) (v : value)
| EvDelAttr (name : string)
| EvCall (f : extern).

(** [attrs] is the instance's [__dict__]; [trace] grows at its end. *)
Record world := { attrs : gmap string value; trace : list event }.

Definition fresh : world := {| attrs := ∅; trace := [] |}.

(** ** Computations that may raise *)

(** A raised exception keeps the world as it was when it was raised. *)
Inductive outcome (A : Type) :=
| Return (a : A) (w : world)
| Raise (e : exn) (w : world).
Arguments Return {A} a w.
Arguments Raise {A} e w.

Definition state_of {A} (o : outcome A) : world :=
  match o with
  | Return _ w => w
  | Raise _ w => w
  end.

Definition M (A : Type) : Type := world -> outcome A.

Definition ret {A} (a : A) : M A := fun w => Return a w.

Definition bind {A B} (c : M A) (k : A -> M B) : M B :=
  fun w =>
    match c w with
    | Return a w' => k a w'
    | Raise e w' => Raise e w'
    end.

Definition raise {A} (e : exn) : M A := fun w => Raise e w.

(** [try: c  except: h] with a bare [except], which catches everything. *)
Definition try_except {A} (c : M A) (h : exn -> M A) : M A :=
  fun w =>
    match c w with
    | Return a w' => Return a w'
    | Raise e w' => h e w'
    end.

(** The result of a collaborator that does not touch the instance. *)
Definition lift {A} (r : exn + A) : M A :=
  match r with
  | inl e => raise e
  | inr a => ret a
  end.

#[global] Instance M_ret : MRet M := @ret.
#[global] Instance M_bind : MBind M := fun A B k c => bind c k.

(** ** Attribute protocol *)

(** Data attributes declared on the class body:
    [process: Optional[SupportModelImageProcessor] = None]. *)
Definition SupportModel_class : gmap string value := {[ "process" := VNone ]}.

(** Instance dictionary first, then the class. *)
Definition read_attr (name : string) (w : world) : option value :=
  match attrs w !! name with
  | Some v => Some v
  | None => SupportModel_class !! name
  end.

(** [self.name] *)
Definition getattr (name : string) : M value :=
  fun w =>
    match read_attr name w with
    | Some v => Return v w
    | None => Raise (AttributeError name) w
    end.

(** [getattr(self, name, default)] *)
Definition getattr_default (name : string) (default : value) : M value :=
  fun w =>
    match read_attr name w with
    | Some v => Return v w
    | None => Return default w
    end.

(** [self.name = v] *)
Definition setattr (name : string) (v : value) : M unit :=
  fun w =>
    Return tt {| attrs := <[name := v]> (attrs w);
                 trace := trace w ++ [EvSetAttr name v] |}.

(** [del self.name]: only an instance attribute can be deleted. *)
Definition delattr (name : string) : M unit :=
  fun w =>
    match attrs w !! name with
    | Some _ =>
        Return tt {| attrs := delete name (attrs w);
                     trace := trace w ++ [EvDelAttr name] |}
    | None => Raise (AttributeError name) w
    end.

(** [torch.cuda.empty_cache()], [torch.mps.empty_cache()], [gc.collect()] *)
Definition call (f : extern) : M unit :=
  fun w => Return tt {| attrs := attrs w; trace := trace w ++ [EvCall f] |}.

(** [self.device.type] *)
Definition device_type : M string :=
  d ← getattr "device";
  match d with
  | VDevice d => ret (type d)
  | _ => raise (AttributeError "type")
  end.

(** ** The platform: what the code imports and calls *)

Module posixpath.

(** What [os.path.expanduser] consults on a POSIX system:
    [os.environ.get("HOME")], [pwd.getpwuid(os.getuid()).pw_dir] and
    [pwd.getpwnam(name).pw_dir].  [None] from a lookup in the password
    database stands for its [KeyError]. *)
Record env := {
  environ_HOME : option string;
  getpwuid_dir : option string;
  getpwnam_dir : string -> option string
}.

(** [s.rstrip(c)] *)
Fixpoint rstrip (c : ascii) (s : string) : string :=
  match s with
  | EmptyString => EmptyString
  | String a s' =>
      match rstrip c s' with
      | EmptyString => if Ascii.eqb a c then EmptyString else String a EmptyString
      | r => String a r
      end
  end.

(** [s.find(c)] for a one-character [c]; [None] is Python's [-1]. *)
Fixpoint find (c : ascii) (s : string) : option nat :=
  match s with
  | EmptyString => None
  | String a s' => if Ascii.eqb a c then Some 0 else S <$> find c s'
  end.

(** [s.find(c, 1)] *)
Definition find_from_1 (c : ascii) (s : string) : option nat :=
  match s with
  | EmptyString => None
  | String _ s' => S <$> find c s'
  end.

(** [s[n:]] *)
Fixpoint slice_from (n : nat) (s : string) : string :=
  match n, s with
  | 0, _ => s
  | S n', String _ s' => slice_from n' s'
  | S _, EmptyString => EmptyString
  end.

(** [s[:n]] *)
Fixpoint slice_to (n : nat) (s : string) : string :=
  match n, s with
  | S n', String a s' => String a (slice_to n' s')
  | _, _ => EmptyString
  end.

(** [i = path.find("/", 1); if i < 0: i = len(path)] *)
Definition tilde_end (path : string) : nat :=
  match find_from_1 "/" path with
  | Some i => i
  | None => String.length path
  end.

(** The current user's home: [os.environ["HOME"]] when set, else the
    password database entry of [os.getuid()]. *)
Definition home (e : env) : option string :=
  match environ_HOME e with
  | Some h => Some h
  | None => getpwuid_dir e
  end.

(** The home directory the leading ["~"] or ["~user"] of [path] names,
    [None] when it is unknown; [path[1:i]] is the user name. *)
Definition userhome (e : env) (path : string) : option string :=
  let i := tilde_end path in
  if Nat.eqb i 1 then home e
  else getpwnam_dir e (slice_to (i - 1) (slice_from 1 path)).

(** [x or "/"] on strings *)
Definition or_root (x : string) : string :=
  match x with
  | EmptyString => "/"
  | _ => x
  end.

(** What [posixpath.expanduser] of the Python standard library returns,
    for [str] paths on a system that has the [pwd] module: "If user or
    $HOME is unknown, do nothing."  It says nothing of the paths on which
    the library function raises instead of returning; [expanduser_exn]
    below has those. *)
Definition expanduser (e : env) (path : string) : string :=
  if negb (String.prefix "~" path) then path
  else
    let i := tilde_end path in
    match userhome e path with
    | None => path
    | Some h => or_root (rstrip "/" h ++ slice_from i path)
    end.


(** ["\0" in s] *)
Fixpoint has_nul (s : string) : bool :=
  match s with
  | EmptyString => false
  | String a s' => Ascii.eqb a "000" || has_nul s'
  end.

(** [pwd.getpwnam(name).pw_dir] with what it raises: [ValueError] for a
    name with an embedded NUL character, checked before the database is
    searched, and [KeyError] for a name the database does not have. *)
Definition getpwnam (e : env) (name : string) : exn + string :=
  if has_nul name then inl (OtherError "ValueError" "embedded null byte")
  else
    match getpwnam_dir e name with
    | Some d => inr d
    | None => inl (KeyError name)
    end.

(** [pwd.getpwuid(os.getuid()).pw_dir] with its [KeyError]. *)
Definition getpwuid (e : env) : exn + string :=
  match getpwuid_dir e with
  | Some d => inr d
  | None => inl (KeyError "uid")
  end.

(** [posixpath.expanduser] with the exceptions it lets through.  The two
    password database lookups are wrapped in [try: ... except KeyError:
    return path]; any other exception of theirs leaves [expanduser]. *)
Definition expanduser_exn (e : env) (path : string) : exn + string :=
  if negb (String.prefix "~" path) then inr path
  else
    let i := tilde_end path in
    let looked_up :=
      if Nat.eqb i 1 then
        match environ_HOME e with
        | Some h => inr h
        | None => getpwuid e
        end
      else getpwnam e (slice_to (i - 1) (slice_from 1 path)) in
    match looked_up with
    | inr h => inr (or_root (rstrip "/" h ++ slice_from i path))
    | inl (KeyError _) => inr path
    | inl err => inl err
    end.

End posixpath.

(** Modelled from the spec: the configuration object, whose class
    ([APIConfiguration] of the [pibble] package) is not part of this
    module; "a configuration service returning a cache-directory string
    for a known key".  It is the map from dotted keys to the strings it
    holds. *)
Abbreviation configuration := (gmap string string).

(** Modelled from the spec: [configuration.get(key, default)] of that
    class. *)
Definition configuration_get (c : configuration) (key default : string) : string :=
  match c !! key with
  | Some v => v
  | None => default
  end.

(** The collaborators the module reaches through its imports.  Those
    defined in other modules are taken as given: what
    [get_optimal_device()] and [get_local_configuration()] return or
    raise, and the object [APIConfiguration()] builds.  The imports
    themselves are taken to succeed. *)
Record platform := {
  os_path_expanduser : string -> string;
  get_optimal_device : exn + torch_device;
  get_local_configuration : exn + configuration;
  APIConfiguration : configuration
}.

(** A POSIX platform, where [os.path] is [posixpath]; [os_path_expanduser]
    is what [os.path.expanduser] returns where it returns. *)
Definition posix (e : posixpath.env) (dev : exn + torch_device)
    (conf : exn + configuration) (dflt : configuration) : platform :=
  {| os_path_expanduser := posixpath.expanduser e;
     get_optimal_device := dev;
     get_local_configuration := conf;
     APIConfiguration := dflt |}.

(** ** class SupportModelImageProcessor *)

Module SupportModelImageProcessor.

(** [__init__(self, **kwargs)]: [self.kwargs = kwargs] *)
Definition __init__ (kwargs : list (string * value)) : value :=
  VProcessor kwargs.

(** [__enter__(self)]: [return self] *)
Definition __enter__ (self : value) : M value := ret self.

(** [__exit__(self, *args)]: [return] *)
Definition __exit__ (self : value) (args : list value) : M value := ret VNone.

(** [__call__(self, image)] *)
Definition __call__ {Image : Type} (self : value) (image : Image) : M Image :=
  raise (NotImplementedError "Implementation did not override __call__").

End SupportModelImageProcessor.

(** ** Generators and [contextlib.contextmanager] *)

(** The body of a generator function whose [yield]s are not enclosed in
    any [try]: ordinary statements and [yield]s in sequence. *)
Inductive generator (Y : Type) :=
| GEnd
| GStmt (c : M unit) (rest : generator Y)
| GYield (y : Y) (rest : generator Y).
Arguments GEnd {Y}.
Arguments GStmt {Y} c rest.
Arguments GYield {Y} y rest.

(** [next(gen)]: run up to the next [yield]; [None] is [StopIteration]. *)
Fixpoint next {Y} (g : generator Y) : M (option (Y * generator Y)) :=
  match g with
  | GEnd => ret None
  | GStmt c rest => c;; next rest
  | GYield y rest => ret (Some (y, rest))
  end.

(** [gen.throw(e)] on a generator suspended at a [yield]: [e] is raised
    at the [yield]; with no handler around it, it leaves the generator
    and the statements after the [yield] are not run. *)
Definition throw {Y} (suspended : generator Y) (e : exn)
    : M (option (Y * generator Y)) := raise e.

Module contextmanager.

(** [_GeneratorContextManager.__enter__]; returns the yielded value and
    the suspended generator. *)
Definition __enter__ {Y} (gen : generator Y) : M (Y * generator Y) :=
  r ← next gen;
  match r with
  | Some yk => ret yk
  | None => raise (RuntimeError "generator didn't yield")
  end.

(** [_GeneratorContextManager.__exit__]; [value] is the exception the
    block raised, if any.  The result says whether to suppress it. *)
Definition __exit__ {Y} (gen : generator Y) (value : option exn) : M bool :=
  match value with
  | None =>
      r ← next gen;
      match r with
      | None => ret false
      | Some _ => raise (RuntimeError "generator didn't stop")
      end
  | Some e =>
      try_except
        (throw gen e;; raise (RuntimeError "generator didn't stop after throw()"))
        (fun exc => if decide (exc = e) then ret false else raise exc)
  end.

End contextmanager.

(** [with cm as y: body(y)] for a generator-based context manager: an
    exception of the block is handed to [__exit__] and raised again
    unless [__exit__] asks to suppress it. *)
Definition with_ {Y} (cm : generator Y) (body : Y -> M unit) : M unit :=
  fun w0 =>
    match contextmanager.__enter__ cm w0 with
    | Raise e w => Raise e w
    | Return (y, gen) w =>
        match body y w with
        | Return _ w' =>
            match contextmanager.__exit__ gen None w' with
            | Return _ w'' => Return tt w''
            | Raise e' w'' => Raise e' w''
            end
        | Raise e w' =>
            match contextmanager.__exit__ gen (Some e) w' with
            | Return suppress w'' =>
                if suppress then Return tt w'' else Raise e w''
            | Raise e' w'' => Raise e' w''
            end
        end
    end.

(** ** class SupportModel *)

(** The reference [self] to the one instance the world holds. *)
Inductive ref := Self.

Module SupportModel.

Section methods.
Variable pf : platform.

(** [__init__(self, model_dir, device, dtype)] *)
Definition __init__ (model_dir : string) (device : torch_device)
    (dtype : torch_dtype) : M unit :=
  let model_dir :=
    if String.prefix "~" model_dir then os_path_expanduser pf model_dir
    else model_dir in
  setattr "model_dir" (VStr model_dir);;
  setattr "device" (VDevice device);;
  setattr "dtype" (VDtype dtype).

(** [cls(model_dir, device, dtype)]: a new object with an empty
    [__dict__], then [__init__]. *)
Definition new (model_dir : string) (device : torch_device)
    (dtype : torch_dtype) : M unit :=
  fun w => __init__ model_dir device dtype {| attrs := ∅; trace := trace w |}.

(** [get_default_instance(cls)] *)
Definition get_default_instance : M unit :=
  device ← lift (get_optimal_device pf);
  configuration ←
    try_except (lift (get_local_configuration pf))
               (fun _ => ret (APIConfiguration pf));
  new (configuration_get configuration
         "enfugue.engine.cache" "~/.cache/enfugue/other")
      device
      (if String.eqb (type device) "cuda" then float16 else float32).

End methods.



(** [if getattr(self, "process", None) is not None: del self.process] *)
Definition drop_process : M unit :=
  p ← getattr_default "process" VNone;
  if is_not_None p then delattr "process" else ret tt.

(** The [if]/[elif] on [self.device.type] that releases the device's
    cached memory. *)
Definition empty_device_cache : M unit :=
  t ← device_type;
  if String.eqb t "cuda" then call torch_cuda_empty_cache
  else
    t' ← device_type;
    if String.eqb t' "mps" then call torch_mps_empty_cache
    else ret tt.

(** The statements of [context] after its [yield]. *)
Definition cleanup : generator ref :=
  GStmt (setattr "loaded" (VBool false))
 (GStmt drop_process
 (GStmt empty_device_cache
 (GStmt (call gc_collect)
  GEnd))).

(** [context(self)], the generator under [@contextmanager]. *)
Definition context : generator ref :=
  GStmt (setattr "loaded" (VBool true))
 (GYield Self
  cleanup).

End SupportModel.

(** ** Reading a trace *)

Definition is_call (f : extern) (ev : event) : bool :=
  match ev, f with
  | EvCall torch_cuda_empty_cache, torch_cuda_empty_cache => true
  | EvCall torch_mps_empty_cache, torch_mps_empty_cache => true
  | EvCall gc_collect, gc_collect => true
  | _, _ => false
  end.

(** How many times [f] was called. *)
Definition calls (f : extern) (t : list event) : nat :=
  List.length (List.filter (is_call f) t).

(** A processor reference is held: [getattr(self, "process", None)] is
    not [None]. *)
Definition holds_process (w : world) : bool :=
  match read_attr "process" w with
  | Some v => is_not_None v
  | None => false
  end.

(** The events normal exit of [SupportModel.context] adds for a device of
    the given type. *)
Definition cache_release (t : string) : list event :=
  if String.eqb t "cuda" then [EvCall torch_cuda_empty_cache]
  else if String.eqb t "mps" then [EvCall torch_mps_empty_cache]
  else [].

(** The path [__init__] stores for [model_dir]. *)
Definition stored_dir (pf : platform) (model_dir : string) : string :=
  if String.prefix "~" model_dir then os_path_expanduser pf model_dir
  else model_dir.

(** The world right after [with self.context():] has been entered. *)
Definition entered (w : world) : world :=
  state_of (contextmanager.__enter__ SupportModel.context w).

(** ** Concrete platforms and devices used in the examples *)

Definition cpu : torch_device := {| type := "cpu"; index := None |}.
Definition cuda0 : torch_device := {| type := "cuda"; index := Some 0 |}.
Definition mps : torch_device := {| type := "mps"; index := None |}.

(** A machine where [$HOME] is [/home/ada], user [bob] exists and no
    other user does. *)
Definition ada_env : posixpath.env :=
  {| posixpath.environ_HOME := Some "/home/ada";
     posixpath.getpwuid_dir := Some "/home/ada";
     posixpath.getpwnam_dir :=
       fun name => if String.eqb name "bob" then Some "/home/bob/" else None |}.

(** The same machine with a GPU and an unreadable configuration file. *)
Definition ada_gpu : platform :=
  posix ada_env (inr cuda0) (inl (OtherError "ConfigurationError" "unreadable")) ∅.

Definition ada_cpu : platform :=
  posix ada_env (inr cpu) (inr {[ "enfugue.engine.cache" := "/var/cache/enfugue" ]}) ∅.

(** ** Statements around the two classes *)

(** [bool(v)], as [with] applies it to what [__exit__] returns. *)
Definition truthy (v : value) : bool :=
  match v with
  | VNone => false
  | VBool b => b
  | VInt z => negb (Z.eqb z 0)
  | VStr s => negb (String.eqb s "")
  | _ => true
  end.

(** [with obj as y: body(y)] for an object whose class defines
    [__enter__] and [__exit__].  On normal exit [__exit__] receives
    [(None, None, None)]; [exc_info] stands for the three arguments the
    interpreter passes for an exception.  A true result of [__exit__]
    suppresses the exception. *)
Definition with_object {Y} (enter : M Y) (exit : list value -> M value)
    (exc_info : exn -> list value) (body : Y -> M unit) : M unit :=
  fun w0 =>
    match enter w0 with
    | Raise e w => Raise e w
    | Return y w =>
        match body y w with
        | Return _ w' =>
            match exit [VNone; VNone; VNone] w' with
            | Return _ w'' => Return tt w''
            | Raise e' w'' => Raise e' w''
            end
        | Raise e w' =>
            match exit (exc_info e) w' with
            | Return r w'' => if truthy r then Return tt w'' else Raise e w''
            | Raise e' w'' => Raise e' w''
            end
        end
    end.

(** [for _ in range(n): c] *)
Fixpoint for_range (n : nat) (c : M unit) : M unit :=
  match n with
  | 0 => ret tt
  | S n' => c;; for_range n' c
  end.

(** A machine like [ada_env]'s on which no device can be resolved. *)
Definition ada_no_device : platform :=
  posix ada_env (inl (RuntimeError "no device")) (inl (KeyError "config")) ∅.

Example expanduser_home :
  posixpath.expanduser ada_env "~/models/foo" = "/home/ada/models/foo".
Proof. reflexivity. Qed.

Example expanduser_named_user :
  posixpath.expanduser ada_env "~bob/x" = "/home/bob/x".
Proof. reflexivity. Qed.

Example expanduser_bare : posixpath.expanduser ada_env "~" = "/home/ada".
Proof. reflexivity. Qed.

(** A user name with an embedded NUL character: [pwd.getpwnam] raises
    [ValueError], which [expanduser] does not catch. *)
Example expanduser_nul_in_user_name :
  posixpath.expanduser_exn ada_env (String "~" (String "a" (String "000" "b/x")))
  = inl (OtherError "ValueError" "embedded null byte").
Proof. reflexivity. Qed.

(** A NUL character elsewhere in the path does no harm. *)
Example expanduser_nul_after_user_name :
  posixpath.expanduser_exn ada_env (String "~" (String "/" (String "000" "b")))
  = inr ("/home/ada/" ++ String "000" "b").
Proof. reflexivity. Qed.

Example expanduser_exn_unknown_user :
  posixpath.expanduser_exn ada_env "~eve/x" = inr "~eve/x".
Proof. reflexivity. Qed.

Example expanduser_unknown_user :
  posixpath.expanduser ada_env "~eve/x" = "~eve/x".
Proof. reflexivity. Qed.

Example with_context_sets_and_drops_process :
  let w := state_of (SupportModel.new ada_cpu "~/models/foo" cuda0 float16 fresh) in
  trace (state_of (with_ SupportModel.context
                     (fun _ => setattr "process" (VProcessor [])) w))
  = [EvSetAttr "model_dir" (VStr "/home/ada/models/foo");
     EvSetAttr "device" (VDevice cuda0);
     EvSetAttr "dtype" (VDtype float16);
     EvSetAttr "loaded" (VBool true);
     EvSetAttr "process" (VProcessor []);
     EvSetAttr "loaded" (VBool false);
     EvDelAttr "process";
     EvCall torch_cuda_empty_cache;
     EvCall gc_collect].
Proof. reflexivity. Qed.

Example with_context_body_raises :
  let w := state_of (SupportModel.new ada_cpu "~/models/foo" cuda0 float16 fresh) in
  let o := with_ SupportModel.context
             (fun _ => setattr "process" (VProcessor []);;
                       raise (OtherError "OutOfMemoryError" "CUDA")) w in
  trace (state_of o)
  = [EvSetAttr "model_dir" (VStr "/home/ada/models/foo");
     EvSetAttr "device" (VDevice cuda0);
     EvSetAttr "dtype" (VDtype float16);
     EvSetAttr "loaded" (VBool true);
     EvSetAttr "process" (VProcessor [])]
  ∧ read_attr "loaded" (state_of o) = Some (VBool true).
Proof. by vm_compute. Qed.

(** [self.process = None] in the body: nothing is deleted on exit. *)
Example with_context_process_set_to_None :
  let w := state_of (SupportModel.new ada_cpu "/srv/models" cpu float32 fresh) in
  let o := with_ SupportModel.context (fun _ => setattr "process" VNone) w in
  trace (state_of o)
  = [EvSetAttr "model_dir" (VStr "/srv/models");
     EvSetAttr "device" (VDevice cpu);
     EvSetAttr "dtype" (VDtype float32);
     EvSetAttr "loaded" (VBool true);
     EvSetAttr "process" VNone;
     EvSetAttr "loaded" (VBool false);
     EvCall gc_collect]
  ∧ attrs (state_of o) !! "process" = Some VNone.
Proof. by vm_compute. Qed.

(** [del self.process] on an instance that has no such attribute of its
    own raises, although the class attribute is readable. *)
Example delattr_class_attribute_raises :
  delattr "process" fresh = Raise (AttributeError "process") fresh
  ∧ getattr "process" fresh = Return VNone fresh.
Proof. by vm_compute. Qed.

(** * Properties *)

(** ** Strings *)

Section strings.
Import posixpath.

Lemma prefix_tilde_cons a s :
  String.prefix "~" (String a s) = Ascii.eqb a "~".
Proof.
  change (String.prefix "~" (String a s))
    with (if ascii_dec "~" a then String.prefix "" s else false).
  destruct (ascii_dec "~" a) as [<-|n].
  - by destruct s.
  - symmetry. apply Ascii.eqb_neq. congruence.
Qed.

Lemma prefix_tilde_app a s t :
  String.prefix "~" (String a s ++ t) = String.prefix "~" (String a s).
Proof.
  change (String a s ++ t) with (String a (s ++ t)).
  by rewrite !prefix_tilde_cons.
Qed.

(** Stripping trailing separators keeps the first character or empties
    the string. *)
Lemma rstrip_cons c a s :
  rstrip c (String a s) = EmptyString ∨ ∃ r, rstrip c (String a s) = String a r.
Proof.
  cbn [rstrip]. destruct (rstrip c s); [|right; eauto].
  destruct (Ascii.eqb a c); [left|right]; eauto.
Qed.

Lemma rstrip_no_tilde h :
  String.prefix "~" h = false → String.prefix "~" (rstrip "/" h) = false.
Proof.
  destruct h as [|a h]; [done|]. intros Ha.
  destruct (rstrip_cons "/" a h) as [->|[r ->]]; [done|].
  by rewrite prefix_tilde_cons in *.
Qed.

Lemma find_slice_from c s i :
  find c s = Some i → ∃ r, slice_from i s = String c r.
Proof.
  revert i. induction s as [|a s IH]; intros i; cbn [find]; [done|].
  destruct (Ascii.eqb_spec a c) as [->|_].
  - intros [= <-]. eauto.
  - destruct (find c s) as [j|]; [|done]. intros [= <-]. by apply IH.
Qed.

Lemma slice_from_length s : slice_from (String.length s) s = EmptyString.
Proof. induction s; [done|]. by cbn. Qed.

(** What follows the ["~user"] part is empty or begins with a separator. *)
Lemma slice_from_tilde_end path :
  slice_from (tilde_end path) path = EmptyString
  ∨ ∃ r, slice_from (tilde_end path) path = String "/" r.
Proof.
  unfold tilde_end, find_from_1. destruct path as [|a s].
  - by left.
  - destruct (find "/" s) as [j|] eqn:Hj; cbn [fmap option_fmap option_map].
    + right. cbn [slice_from]. by apply find_slice_from.
    + left. apply slice_from_length.
Qed.

Lemma or_root_no_tilde x :
  String.prefix "~" x = false → String.prefix "~" (or_root x) = false.
Proof. by destruct x. Qed.

Lemma expanduser_not_tilde e path :
  String.prefix "~" path = false → expanduser e path = path.
Proof. unfold expanduser. by intros ->. Qed.

Lemma expanduser_unknown e path :
  userhome e path = None → expanduser e path = path.
Proof. unfold expanduser. intros ->. by destruct (negb _). Qed.

Lemma expanduser_known e path h :
  String.prefix "~" path = true → userhome e path = Some h →
  expanduser e path = or_root (rstrip "/" h ++ slice_from (tilde_end path) path).
Proof. unfold expanduser. by intros -> ->. Qed.

(** A known home directory that is not itself spelled with a tilde
    expands to a path without one. *)
Lemma expanduser_no_tilde e path h :
  String.prefix "~" path = true → userhome e path = Some h →
  String.prefix "~" h = false →
  String.prefix "~" (expanduser e path) = false.
Proof.
  intros Hp Hu Hh. rewrite (expanduser_known _ _ _ Hp Hu).
  apply or_root_no_tilde. apply rstrip_no_tilde in Hh.
  destruct (rstrip "/" h) as [|a r].
  - destruct (slice_from_tilde_end path) as [->|[r ->]]; done.
  - by rewrite prefix_tilde_app.
Qed.

End strings.

(** ** Where [expanduser] raises *)

Section expanduser_exceptions.
Import posixpath.





End expanduser_exceptions.

(** ** Attributes *)

Lemma read_attr_instance name v w :
  attrs w !! name = Some v → read_attr name w = Some v.
Proof. unfold read_attr. by intros ->. Qed.

Lemma getattr_read name v w :
  read_attr name w = Some v → getattr name w = Return v w.
Proof. unfold getattr. by intros ->. Qed.

Lemma world_eta w : {| attrs := attrs w; trace := trace w |} = w.
Proof. by destruct w. Qed.

(** ** Construction *)

Section construction.
Variable pf : platform.

Lemma new_spec model_dir device dtype w :
  SupportModel.new pf model_dir device dtype w
  = Return tt
      {| attrs := <["dtype" := VDtype dtype]>
                    (<["device" := VDevice device]>
                       (<["model_dir" := VStr (stored_dir pf model_dir)]> ∅));
         trace := trace w ++ [EvSetAttr "model_dir" (VStr (stored_dir pf model_dir));
                              EvSetAttr "device" (VDevice device);
                              EvSetAttr "dtype" (VDtype dtype)] |}.
Proof.
  unfold SupportModel.new, SupportModel.__init__, stored_dir.
  cbv [mbind M_bind bind setattr attrs trace].
  by rewrite <- !app_assoc.
Qed.

Lemma new_attrs model_dir device dtype w :
  let w' := state_of (SupportModel.new pf model_dir device dtype w) in
  read_attr "model_dir" w' = Some (VStr (stored_dir pf model_dir))
  ∧ read_attr "device" w' = Some (VDevice device)
  ∧ read_attr "dtype" w' = Some (VDtype dtype)
  ∧ attrs w' !! "loaded" = None
  ∧ attrs w' !! "process" = None.
Proof. rewrite new_spec. by repeat split. Qed.

End construction.

(** ** The scoped-execution context *)

Lemma enter_context w :
  contextmanager.__enter__ SupportModel.context w
  = Return (Self, SupportModel.cleanup)
      {| attrs := <["loaded" := VBool true]> (attrs w);
         trace := trace w ++ [EvSetAttr "loaded" (VBool true)] |}.
Proof. reflexivity. Qed.

Lemma entered_loaded w : read_attr "loaded" (entered w) = Some (VBool true).
Proof.
  unfold entered. rewrite enter_context.
  apply read_attr_instance, lookup_insert_eq.
Qed.

(** Without an instance attribute the class default [None] is read. *)
Lemma read_process_class w :
  attrs w !! "process" = None → read_attr "process" w = Some VNone.
Proof. unfold read_attr. by intros ->. Qed.

Lemma holds_process_false w :
  holds_process w = false → read_attr "process" w = Some VNone.
Proof.
  unfold holds_process, read_attr.
  destruct (attrs w !! "process") as [v|]; [|done].
  by destruct v.
Qed.

Lemma holds_process_true w :
  holds_process w = true → is_Some (attrs w !! "process").
Proof.
  unfold holds_process, read_attr.
  destruct (attrs w !! "process") as [v|]; [eauto|done].
Qed.

Lemma drop_process_spec w :
  SupportModel.drop_process w
  = Return tt (if holds_process w
               then {| attrs := delete "process" (attrs w);
                       trace := trace w ++ [EvDelAttr "process"] |}
               else w).
Proof.
  unfold SupportModel.drop_process, holds_process.
  cbv [mbind M_bind bind getattr_default].
  unfold read_attr.
  destruct (attrs w !! "process") as [v|] eqn:Hv; [|done].
  destruct v; cbn [is_not_None]; try done; unfold delattr; by rewrite Hv.
Qed.

Lemma empty_device_cache_spec w d :
  read_attr "device" w = Some (VDevice d) →
  SupportModel.empty_device_cache w
  = Return tt {| attrs := attrs w; trace := trace w ++ cache_release (type d) |}.
Proof.
  intros Hd. unfold SupportModel.empty_device_cache, device_type, cache_release.
  cbv [mbind M_bind bind]. rewrite !(getattr_read _ _ _ Hd). cbv [ret].
  destruct (String.eqb (type d) "cuda"); [done|].
  rewrite !(getattr_read _ _ _ Hd).
  destruct (String.eqb (type d) "mps"); [done|].
  by rewrite app_nil_r, world_eta.
Qed.

(** Whatever [self.device] holds, the cache release leaves the instance's
    attributes alone. *)
Lemma empty_device_cache_attrs w :
  attrs (state_of (SupportModel.empty_device_cache w)) = attrs w.
Proof.
  unfold SupportModel.empty_device_cache, device_type.
  cbv [mbind M_bind bind getattr].
  destruct (read_attr "device" w) as [v|] eqn:Hd; [|done].
  destruct v as [| | | |d| |]; try done. cbv [ret].
  destruct (String.eqb (type d) "cuda"); [done|].
  rewrite Hd.
  by destruct (String.eqb (type d) "mps").
Qed.

(** The attributes after the statements that follow the [yield], whether
    or not the device lookup in them raises. *)
Lemma cleanup_attrs w :
  attrs (state_of (contextmanager.__exit__ SupportModel.cleanup None w))
  = if holds_process w
    then delete "process" (<["loaded" := VBool false]> (attrs w))
    else <["loaded" := VBool false]> (attrs w).
Proof.
  unfold contextmanager.__exit__, SupportModel.cleanup.
  cbn [next]. cbv [mbind M_bind bind setattr].
  rewrite drop_process_spec.
  set (w1 := {| attrs := <["loaded" := VBool false]> (attrs w);
                trace := trace w ++ [EvSetAttr "loaded" (VBool false)] |}).
  assert (holds_process w1 = holds_process w) as ->.
  { unfold holds_process, read_attr, w1. cbn [attrs].
    by rewrite lookup_insert_ne. }
  set (w2 := if holds_process w then _ else w1).
  assert (attrs w2 =
          if holds_process w
          then delete "process" (<["loaded" := VBool false]> (attrs w))
          else <["loaded" := VBool false]> (attrs w)) as <-.
  { unfold w2. by destruct (holds_process w). }
  pose proof (empty_device_cache_attrs w2) as Hc.
  destruct (SupportModel.empty_device_cache w2) as [[] w3|e w3];
    cbn [state_of] in *; done.
Qed.

Lemma cleanup_spec w d :
  read_attr "device" w = Some (VDevice d) →
  ∃ w', contextmanager.__exit__ SupportModel.cleanup None w = Return false w'
    ∧ trace w' = (trace w ++ [EvSetAttr "loaded" (VBool false)]
                          ++ (if holds_process w then [EvDelAttr "process"] else [])
                          ++ cache_release (type d)
                          ++ [EvCall gc_collect])%list.
Proof.
  intros Hd.
  unfold contextmanager.__exit__, SupportModel.cleanup.
  cbn [next]. cbv [mbind M_bind bind setattr].
  rewrite drop_process_spec.
  set (w1 := {| attrs := <["loaded" := VBool false]> (attrs w);
                trace := trace w ++ [EvSetAttr "loaded" (VBool false)] |}).
  assert (holds_process w1 = holds_process w) as ->.
  { unfold holds_process, read_attr, w1. cbn [attrs].
    by rewrite lookup_insert_ne. }
  set (w2 := if holds_process w then _ else w1).
  assert (read_attr "device" w2 = Some (VDevice d)) as Hd2.
  { unfold w2, w1, read_attr in *. destruct (holds_process w); cbn [attrs].
    - rewrite lookup_delete_ne by done. by rewrite lookup_insert_ne.
    - by rewrite lookup_insert_ne. }
  rewrite (empty_device_cache_spec _ _ Hd2).
  eexists. split; [reflexivity|]. cbn [trace].
  unfold w2, w1. destruct (holds_process w); cbn [trace];
    by rewrite <- ?app_assoc.
Qed.

Lemma read_attr_ext name w1 w2 :
  attrs w1 = attrs w2 → read_attr name w1 = read_attr name w2.
Proof. unfold read_attr. by intros ->. Qed.

Lemma entered_unfold w :
  entered w = {| attrs := <["loaded" := VBool true]> (attrs w);
                 trace := trace w ++ [EvSetAttr "loaded" (VBool true)] |}.
Proof. reflexivity. Qed.

(** [with self.context(): body] when the body returns: the outcome is
    that of the statements after the [yield]. *)
Lemma with_context_returns body w0 w :
  body Self (entered w0) = Return tt w →
  with_ SupportModel.context body w0
  = match contextmanager.__exit__ SupportModel.cleanup None w with
    | Return _ w' => Return tt w'
    | Raise e w' => Raise e w'
    end.
Proof.
  intros Hb. unfold with_. rewrite enter_context, <- entered_unfold.
  by rewrite Hb.
Qed.

(** ** Claims *)







(** C2.  When the body of [with self.context():] returns without raising,
    then afterwards [self.loaded] is [False] and [self.process] reads
    [None], whatever the body did to the instance; if [self.device] is
    still a device the [with] statement itself returns normally. *)
Theorem context_normal_exit_clears (body : ref → M unit) (w0 w : world) :
  body Self (entered w0) = Return tt w →
  let o := with_ SupportModel.context body w0 in
  read_attr "loaded" (state_of o) = Some (VBool false)
  ∧ read_attr "process" (state_of o) = Some VNone
  ∧ holds_process (state_of o) = false
  ∧ (∀ d, read_attr "device" w = Some (VDevice d) → ∃ w', o = Return tt w').
Proof.
  intros Hb o. unfold o. rewrite (with_context_returns _ _ _ Hb).
  pose proof (cleanup_attrs w) as Ha.
  assert (∀ w', attrs w' =
            (if holds_process w
             then delete "process" (<["loaded" := VBool false]> (attrs w))
             else <["loaded" := VBool false]> (attrs w)) →
          read_attr "loaded" w' = Some (VBool false)
          ∧ read_attr "process" w' = Some VNone) as Hfin.
  { intros w' Hw'. destruct (holds_process w) eqn:Hh.
    - split.
      + apply read_attr_instance. rewrite Hw'.
        rewrite lookup_delete_ne by done. apply lookup_insert_eq.
      + apply read_process_class. rewrite Hw'. apply lookup_delete_eq.
    - split.
      + apply read_attr_instance. rewrite Hw'. apply lookup_insert_eq.
      + rewrite <- (holds_process_false _ Hh). unfold read_attr.
        rewrite Hw'. by rewrite lookup_insert_ne. }
  assert (∀ w', read_attr "process" w' = Some VNone → holds_process w' = false)
    as Hnone.
  { intros w' Hw'. unfold holds_process. by rewrite Hw'. }
  split_and!.
  - destruct (contextmanager.__exit__ _ _ w); apply Hfin, Ha.
  - destruct (contextmanager.__exit__ _ _ w); apply Hfin, Ha.
  - destruct (contextmanager.__exit__ _ _ w); apply Hnone, Hfin, Ha.
  - intros d Hd. destruct (cleanup_spec _ _ Hd) as (w' & -> & _). eauto.
Qed.

(** C3.  When the body of [with self.context():] raises, the same
    exception leaves the [with] statement and the world is exactly the one
    the body left: nothing after the [yield] has run, so no event was
    added to the trace (no cache release, no [gc.collect()]), the
    [process] attribute is as the body left it, and [self.loaded], set to
    [True] on entry, is still [True] unless the body itself changed it. *)
Theorem context_body_raises (body : ref → M unit) (w0 w : world) (e : exn) :
  body Self (entered w0) = Raise e w →
  let o := with_ SupportModel.context body w0 in
  o = Raise e w
  ∧ trace (state_of o) = trace w
  ∧ attrs (state_of o) !! "process" = attrs w !! "process"
  ∧ read_attr "loaded" (entered w0) = Some (VBool true)
  ∧ (attrs w !! "loaded" = attrs (entered w0) !! "loaded" →
     read_attr "loaded" (state_of o) = Some (VBool true)).
Proof.
  intros Hb o.
  assert (o = Raise e w) as ->.
  { unfold o, with_. rewrite enter_context, <- entered_unfold, Hb.
    unfold contextmanager.__exit__, try_except, throw.
    cbv [mbind M_bind bind raise]. by rewrite decide_True. }
  cbn [state_of]. split_and!; try done.
  - apply entered_loaded.
  - intros Hl. apply read_attr_instance. rewrite Hl, entered_unfold.
    apply lookup_insert_eq.
Qed.

(** ** The default instance *)

Lemma get_default_instance_spec pf :
  SupportModel.get_default_instance pf fresh
  = match get_optimal_device pf with
    | inl e => Raise e fresh
    | inr d =>
        SupportModel.new pf
          (configuration_get
             (match get_local_configuration pf with
              | inl _ => APIConfiguration pf
              | inr c => c
              end)
             "enfugue.engine.cache" "~/.cache/enfugue/other")
          d (if String.eqb (type d) "cuda" then float16 else float32) fresh
    end.
Proof.
  unfold SupportModel.get_default_instance.
  cbv [mbind M_bind bind try_except lift].
  destruct (get_optimal_device pf) as [e|d]; [done|].
  by destruct (get_local_configuration pf).
Qed.

(** C4.  When the resolved device's type is ["cuda"],
    [get_default_instance] builds an instance with dtype [float16]; for
    every other device type it builds one with dtype [float32]. *)
Theorem default_instance_dtype (pf : platform) (d : torch_device) :
  get_optimal_device pf = inr d →
  ∃ w, SupportModel.get_default_instance pf fresh = Return tt w
    ∧ read_attr "device" w = Some (VDevice d)
    ∧ (type d = "cuda" → read_attr "dtype" w = Some (VDtype float16))
    ∧ (type d ≠ "cuda" → read_attr "dtype" w = Some (VDtype float32)).
Proof.
  intros Hd. rewrite get_default_instance_spec, Hd.
  eexists. split; [apply new_spec|]. split; [done|].
  split; intros Ht.
  - by rewrite Ht.
  - apply String.eqb_neq in Ht. by rewrite Ht.
Qed.

Lemma default_instance_dtype_witness :
  ∃ w, SupportModel.get_default_instance ada_gpu fresh = Return tt w
    ∧ read_attr "device" w = Some (VDevice cuda0)
    ∧ (type cuda0 = "cuda" → read_attr "dtype" w = Some (VDtype float16))
    ∧ (type cuda0 ≠ "cuda" → read_attr "dtype" w = Some (VDtype float32)).
Proof. apply (default_instance_dtype ada_gpu cuda0). reflexivity. Defined.



Example default_instance_on_ada_gpu :
  let w := state_of (SupportModel.get_default_instance ada_gpu fresh) in
  read_attr "model_dir" w = Some (VStr "/home/ada/.cache/enfugue/other")
  ∧ read_attr "dtype" w = Some (VDtype float16).
Proof. by vm_compute. Qed.

(** C6.  On normal exit of [with self.context():] the steps after the
    [yield] happen in this order and no other effect occurs: [loaded] is
    set to [False]; then [process] is deleted if a processor is held; then
    [torch.cuda.empty_cache()] is called if the device type is ["cuda"],
    else [torch.mps.empty_cache()] if it is ["mps"], else neither; and
    [gc.collect()] is called once, last.  The instance is changed
    accordingly: its attributes are those the body left, with [loaded]
    now [False] and the held [process] removed, so that [self.loaded]
    reads [False] and [self.process] reads [None]. *)
Theorem context_exit_order (body : ref → M unit) (w0 w : world)
    (d : torch_device) :
  body Self (entered w0) = Return tt w →
  read_attr "device" w = Some (VDevice d) →
  ∃ w', with_ SupportModel.context body w0 = Return tt w'
    ∧ trace w'
      = (trace w
           ++ [EvSetAttr "loaded" (VBool false)]
           ++ (if holds_process w then [EvDelAttr "process"] else [])
           ++ (if String.eqb (type d) "cuda" then [EvCall torch_cuda_empty_cache]
               else if String.eqb (type d) "mps" then [EvCall torch_mps_empty_cache]
               else [])
           ++ [EvCall gc_collect])%list
    ∧ attrs w'
      = (if holds_process w
         then delete "process" (<["loaded" := VBool false]> (attrs w))
         else <["loaded" := VBool false]> (attrs w))
    ∧ read_attr "loaded" w' = Some (VBool false)
    ∧ read_attr "process" w' = Some VNone
    ∧ holds_process w' = false.
Proof.
  intros Hb Hd. rewrite (with_context_returns _ _ _ Hb).
  pose proof (cleanup_attrs w) as Ha.
  destruct (cleanup_spec _ _ Hd) as (w' & Hw & Ht).
  rewrite Hw in *. cbn [state_of] in Ha.
  exists w'. split; [done|]. split; [exact Ht|]. split; [exact Ha|].
  assert (read_attr "process" w' = Some VNone) as Hp.
  { destruct (holds_process w) eqn:Hh.
    - apply read_process_class. rewrite Ha. apply lookup_delete_eq.
    - rewrite <- (holds_process_false _ Hh). unfold read_attr.
      rewrite Ha. by rewrite lookup_insert_ne. }
  split; [|split; [exact Hp|]].
  - apply read_attr_instance. rewrite Ha. destruct (holds_process w).
    + rewrite lookup_delete_ne by done. apply lookup_insert_eq.
    + apply lookup_insert_eq.
  - unfold holds_process. by rewrite Hp.
Qed.

Lemma context_exit_order_witness :
  ∃ w', with_ SupportModel.context (fun _ => setattr "process" (VProcessor []))
          (state_of (SupportModel.new ada_cpu "~/models/foo" mps float32 fresh))
        = Return tt w'
    ∧ trace w'
      = [EvSetAttr "model_dir" (VStr "/home/ada/models/foo");
         EvSetAttr "device" (VDevice mps);
         EvSetAttr "dtype" (VDtype float32);
         EvSetAttr "loaded" (VBool true);
         EvSetAttr "process" (VProcessor []);
         EvSetAttr "loaded" (VBool false);
         EvDelAttr "process";
         EvCall torch_mps_empty_cache;
         EvCall gc_collect]
    ∧ attrs w' !! "loaded" = Some (VBool false)
    ∧ attrs w' !! "process" = None
    ∧ read_attr "process" w' = Some VNone.
Proof.
  destruct (context_exit_order
              (fun _ => setattr "process" (VProcessor []))
              (state_of (SupportModel.new ada_cpu "~/models/foo" mps float32 fresh))
              _ mps eq_refl eq_refl) as (w' & Hw & Ht & Ha & _ & Hp & _).
  exists w'. split; [exact Hw|]. split; [rewrite Ht; reflexivity|].
  split; [rewrite Ha; reflexivity|]. split; [rewrite Ha; reflexivity|exact Hp].
Defined.

Lemma context_normal_exit_clears_witness :
  let body := fun _ : ref => setattr "process" (VProcessor [("scale", VInt 2)]) in
  let w0 := state_of (SupportModel.new ada_cpu "~/models/foo" cuda0 float16 fresh) in
  let o := with_ SupportModel.context body w0 in
  read_attr "loaded" (state_of o) = Some (VBool false)
  ∧ read_attr "process" (state_of o) = Some VNone
  ∧ holds_process (state_of o) = false
  ∧ (∀ d, read_attr "device" (state_of (body Self (entered w0))) = Some (VDevice d) →
          ∃ w', o = Return tt w').
Proof.
  intros body w0.
  apply (context_normal_exit_clears body w0 (state_of (body Self (entered w0)))).
  reflexivity.
Defined.

Lemma context_body_raises_witness :
  let body := fun _ : ref =>
    setattr "process" (VProcessor []);; raise (OtherError "OutOfMemoryError" "CUDA") in
  let w0 := state_of (SupportModel.new ada_cpu "~/models/foo" cuda0 float16 fresh) in
  let o := with_ SupportModel.context body w0 in
  o = Raise (OtherError "OutOfMemoryError" "CUDA") (state_of (body Self (entered w0)))
  ∧ read_attr "loaded" (state_of o) = Some (VBool true)
  ∧ read_attr "process" (state_of o) = Some (VProcessor [])
  ∧ calls torch_cuda_empty_cache (trace (state_of o)) = 0
  ∧ calls gc_collect (trace (state_of o)) = 0.
Proof.
  intros body w0 o.
  destruct (context_body_raises body w0 (state_of (body Self (entered w0)))
              (OtherError "OutOfMemoryError" "CUDA") eq_refl)
    as (Ho & Ht & Hp & _ & Hl).
  fold o in Ho, Ht, Hp, Hl.
  split; [exact Ho|]. split; [apply Hl; reflexivity|].
  split; [apply read_attr_instance; rewrite Hp; reflexivity|].
  unfold calls. rewrite Ht. split; reflexivity.
Defined.

(** ** The scenario of the specification *)

Lemma or_root_app_cons x a s :
  posixpath.or_root (x ++ String a s) = x ++ String a s.
Proof. by destruct x. Qed.

Lemma expanduser_models_foo e h :
  posixpath.home e = Some h →
  posixpath.expanduser e "~/models/foo" = posixpath.rstrip "/" h ++ "/models/foo".
Proof.
  intros Hh. rewrite (expanduser_known e _ h); [|done|exact Hh].
  apply or_root_app_cons.
Qed.

(** C7.  With [model_dir = "~/models/foo"], a CPU device and [float32],
    where the current user's home directory is [h]: the stored
    [model_dir] is [h] (without trailing separators) followed by
    ["/models/foo"]; entering and leaving [with self.context():] with an
    empty body returns normally, leaves [loaded] equal to [False], and the
    whole run contains exactly one [gc.collect()] call and no
    [empty_cache()] call of either runtime. *)
Theorem scenario_home_models_foo (e : posixpath.env) (dev : exn + torch_device)
    (conf : exn + configuration) (dflt : configuration) (h : string) :
  posixpath.home e = Some h →
  ∃ w1 w2,
    SupportModel.new (posix e dev conf dflt) "~/models/foo" cpu float32 fresh
    = Return tt w1
    ∧ read_attr "model_dir" w1
      = Some (VStr (posixpath.rstrip "/" h ++ "/models/foo"))
    ∧ (posixpath.rstrip "/" h = h →
       read_attr "model_dir" w1 = Some (VStr (h ++ "/models/foo")))
    ∧ with_ SupportModel.context (fun _ => ret tt) w1 = Return tt w2
    ∧ read_attr "loaded" w2 = Some (VBool false)
    ∧ calls gc_collect (trace w2) = 1
    ∧ calls torch_cuda_empty_cache (trace w2) = 0
    ∧ calls torch_mps_empty_cache (trace w2) = 0.
Proof.
  intros Hh. eexists. eexists. split; [apply new_spec|].
  assert (stored_dir (posix e dev conf dflt) "~/models/foo"
          = posixpath.rstrip "/" h ++ "/models/foo") as ->.
  { apply (expanduser_models_foo e h Hh). }
  split; [done|]. split; [by intros ->|].
  split; [reflexivity|]. by repeat split.
Qed.

Lemma scenario_home_models_foo_witness :
  ∃ w1 w2,
    SupportModel.new ada_cpu "~/models/foo" cpu float32 fresh = Return tt w1
    ∧ read_attr "model_dir" w1 = Some (VStr "/home/ada/models/foo")
    ∧ with_ SupportModel.context (fun _ => ret tt) w1 = Return tt w2
    ∧ read_attr "loaded" w2 = Some (VBool false)
    ∧ calls gc_collect (trace w2) = 1
    ∧ calls torch_cuda_empty_cache (trace w2) = 0
    ∧ calls torch_mps_empty_cache (trace w2) = 0.
Proof.
  destruct (scenario_home_models_foo ada_env (inr cpu)
              (inr {[ "enfugue.engine.cache" := "/var/cache/enfugue" ]}) ∅
              "/home/ada" eq_refl)
    as (w1 & w2 & Hn & _ & Hd & Hrest).
  exists w1, w2. split; [exact Hn|]. split; [apply Hd; reflexivity|exact Hrest].
Defined.

(** ** The base image processor *)

(** C8.  Calling the base [SupportModelImageProcessor] on any image raises
    [NotImplementedError] and never returns a value; [__enter__] returns
    the processor itself and [__exit__] returns [None]; none of the three
    changes the world. *)
Theorem base_processor_contract {Image : Type} (kwargs : list (string * value))
    (image : Image) (args : list value) (w : world) :
  let self := SupportModelImageProcessor.__init__ kwargs in
  SupportModelImageProcessor.__call__ self image w
  = Raise (NotImplementedError "Implementation did not override __call__") w
  ∧ (∀ (r : Image) w', SupportModelImageProcessor.__call__ self image w ≠ Return r w')
  ∧ SupportModelImageProcessor.__enter__ self w = Return self w
  ∧ SupportModelImageProcessor.__exit__ self args w = Return VNone w.
Proof. by repeat split. Qed.

(** ** Attributes that exist and attributes that do not *)

(** C9.  A freshly constructed [SupportModel] has no [loaded] attribute:
    reading [self.loaded] raises [AttributeError] instead of giving
    [False].  The attribute comes into being when the context is entered,
    where it reads [True]. *)
Theorem loaded_absent_until_entry (pf : platform) (model_dir : string)
    (device : torch_device) (dtype : torch_dtype) :
  ∃ w, SupportModel.new pf model_dir device dtype fresh = Return tt w
    ∧ attrs w !! "loaded" = None
    ∧ SupportModel_class !! "loaded" = None
    ∧ getattr "loaded" w = Raise (AttributeError "loaded") w
    ∧ getattr "loaded" (entered w) = Return (VBool true) (entered w).
Proof.
  eexists. split; [apply new_spec|].
  split; [done|]. split; [done|]. split; [done|].
  apply getattr_read, entered_loaded.
Qed.

(** C10.  The processor-dropping step of the context exit never raises.
    When no processor is held nothing is deleted and the world is
    unchanged; when one is held the instance attribute [process] is
    deleted, and afterwards [self.process] is still readable and gives the
    class-level default [None]. *)
Theorem drop_process_never_fails (w : world) :
  ∃ w', SupportModel.drop_process w = Return tt w'
    ∧ getattr "process" w' = Return VNone w'
    ∧ (holds_process w = false → w' = w)
    ∧ (holds_process w = true →
       is_Some (attrs w !! "process")
       ∧ attrs w' = delete "process" (attrs w)
       ∧ attrs w' !! "process" = None
       ∧ trace w' = (trace w ++ [EvDelAttr "process"])%list).
Proof.
  eexists. split; [apply drop_process_spec|].
  destruct (holds_process w) eqn:Hh.
  - split; [|split; [done|]].
    + apply getattr_read, read_process_class, lookup_delete_eq.
    + intros _. split; [by apply holds_process_true|].
      split; [done|]. split; [apply lookup_delete_eq|done].
  - split; [|split; done].
    by apply getattr_read, holds_process_false.
Qed.


(** * Further properties *)

(** ** What the context leaves alone *)

Lemma exit_attrs_other w name :
  name ≠ "loaded" → name ≠ "process" →
  attrs (state_of (contextmanager.__exit__ SupportModel.cleanup None w)) !! name
  = attrs w !! name.
Proof.
  intros Hl Hp. rewrite cleanup_attrs. destruct (holds_process w).
  - rewrite lookup_delete_ne by done. by rewrite lookup_insert_ne.
  - by rewrite lookup_insert_ne.
Qed.

Lemma state_of_with_returns body w0 w :
  body Self (entered w0) = Return tt w →
  state_of (with_ SupportModel.context body w0)
  = state_of (contextmanager.__exit__ SupportModel.cleanup None w).
Proof.
  intros Hb. rewrite (with_context_returns _ _ _ Hb).
  by destruct (contextmanager.__exit__ _ _ w).
Qed.



(** ** Leaving the context when [self.device] is no device *)

Lemma empty_device_cache_fails w :
  (∀ d, read_attr "device" w ≠ Some (VDevice d)) →
  ∃ name, SupportModel.empty_device_cache w = Raise (AttributeError name) w.
Proof.
  intros Hd. unfold SupportModel.empty_device_cache, device_type.
  cbv [mbind M_bind bind getattr].
  destruct (read_attr "device" w) as [v|] eqn:Hv; [|by eexists].
  destruct v as [| | | |d| |]; try by eexists.
  by destruct (Hd d).
Qed.

(** X2.  If the body returns but has left [self.device] missing or
    holding something that is no device, leaving the context raises
    [AttributeError] at the device test: by then [loaded] is [False] and a
    held processor has been deleted, but neither [empty_cache()] nor
    [gc.collect()] is called. *)
Theorem context_exit_without_device (body : ref → M unit) (w0 w : world) :
  body Self (entered w0) = Return tt w →
  (∀ d, read_attr "device" w ≠ Some (VDevice d)) →
  ∃ name w',
    with_ SupportModel.context body w0 = Raise (AttributeError name) w'
    ∧ trace w'
      = (trace w
           ++ [EvSetAttr "loaded" (VBool false)]
           ++ (if holds_process w then [EvDelAttr "process"] else []))%list
    ∧ read_attr "loaded" w' = Some (VBool false)
    ∧ holds_process w' = false.
Proof.
  intros Hb Hd.
  pose proof (state_of_with_returns _ _ _ Hb) as Hs.
  pose proof (cleanup_attrs w) as Ha. rewrite <- Hs in Ha.
  rewrite (with_context_returns _ _ _ Hb) in *.
  unfold contextmanager.__exit__, SupportModel.cleanup in *.
  cbn [next] in *. cbv [mbind M_bind bind setattr] in *.
  rewrite drop_process_spec in *.
  set (w1 := {| attrs := <["loaded" := VBool false]> (attrs w);
                trace := trace w ++ [EvSetAttr "loaded" (VBool false)] |}) in *.
  assert (holds_process w1 = holds_process w) as Hh.
  { unfold holds_process, read_attr, w1. cbn [attrs].
    by rewrite lookup_insert_ne. }
  rewrite Hh in *.
  set (w2 := if holds_process w then _ else w1) in *.
  assert (∀ d, read_attr "device" w2 ≠ Some (VDevice d)) as Hd2.
  { intros d. specialize (Hd d). unfold w2, w1, read_attr in *.
    destruct (holds_process w); cbn [attrs].
    - rewrite lookup_delete_ne by done. by rewrite lookup_insert_ne.
    - by rewrite lookup_insert_ne. }
  destruct (empty_device_cache_fails _ Hd2) as [name Hn].
  rewrite Hn in *. cbn [state_of] in *.
  exists name, w2. split; [done|]. split.
  - unfold w2, w1. destruct (holds_process w); cbn [trace];
      by rewrite <- ?app_assoc, ?app_nil_r.
  - assert (read_attr "loaded" w2 = Some (VBool false)) as Hl.
    { apply read_attr_instance. rewrite Ha. destruct (holds_process w).
      - rewrite lookup_delete_ne by done. apply lookup_insert_eq.
      - apply lookup_insert_eq. }
    split; [done|].
    unfold holds_process, read_attr. rewrite Ha.
    destruct (holds_process w) eqn:Hw.
    + by rewrite lookup_delete_eq.
    + rewrite lookup_insert_ne by done.
      apply holds_process_false in Hw. unfold read_attr in Hw.
      destruct (attrs w !! "process") as [v|]; [|done].
      by injection Hw as ->.
Qed.

Lemma context_exit_without_device_witness :
  let body := fun _ : ref =>
    setattr "process" (VProcessor []);; delattr "device" in
  let w0 := state_of (SupportModel.new ada_cpu "~/models/foo" cuda0 float16 fresh) in
  ∃ name w',
    with_ SupportModel.context body w0 = Raise (AttributeError name) w'
    ∧ calls torch_cuda_empty_cache (trace w') = 0
    ∧ calls gc_collect (trace w') = 0
    ∧ read_attr "loaded" w' = Some (VBool false).
Proof.
  intros body w0.
  destruct (context_exit_without_device body w0
              (state_of (body Self (entered w0))) eq_refl)
    as (name & w' & Hw & Ht & Hl & _).
  { intros d. vm_compute. discriminate. }
  exists name, w'. split; [exact Hw|]. unfold calls. rewrite Ht.
  split; [reflexivity|]. split; [reflexivity|exact Hl].
Defined.

(** ** More on the default instance *)



(** X4.  When [get_optimal_device()] raises, [get_default_instance]
    raises the same exception before anything else happens: no instance
    is built and no event occurs, whether or not the configuration could
    have been read. *)
Theorem default_instance_device_failure (pf : platform) (e : exn) (w : world) :
  get_optimal_device pf = inl e →
  SupportModel.get_default_instance pf w = Raise e w.
Proof.
  intros Hd. unfold SupportModel.get_default_instance.
  cbv [mbind M_bind bind lift]. by rewrite Hd.
Qed.

Lemma default_instance_device_failure_witness :
  SupportModel.get_default_instance ada_no_device fresh
  = Raise (RuntimeError "no device") fresh.
Proof.
  apply (default_instance_device_failure ada_no_device
           (RuntimeError "no device") fresh).
  reflexivity.
Defined.

Lemma expanduser_home_slash e h rest :
  posixpath.home e = Some h →
  posixpath.expanduser e (String "~" (String "/" rest))
  = posixpath.rstrip "/" h ++ String "/" rest.
Proof.
  intros Hh. rewrite (expanduser_known e _ h); [|done|exact Hh].
  apply or_root_app_cons.
Qed.

(** X5.  On a POSIX system where the current user's home directory is
    [h], when a device is resolved and the configuration in use (the one
    read, or [APIConfiguration()] if reading raised) has no
    ["enfugue.engine.cache"] entry, the default instance's [model_dir] is
    [h] without trailing separators followed by
    ["/.cache/enfugue/other"]. *)
Theorem default_instance_default_cache_dir (e : posixpath.env)
    (conf : exn + configuration) (dflt : configuration)
    (d : torch_device) (h : string) :
  posixpath.home e = Some h →
  match conf with inr c => c | inl _ => dflt end !! "enfugue.engine.cache" = None →
  ∃ w, SupportModel.get_default_instance (posix e (inr d) conf dflt) fresh
       = Return tt w
    ∧ read_attr "model_dir" w
      = Some (VStr (posixpath.rstrip "/" h ++ "/.cache/enfugue/other")).
Proof.
  intros Hh Hc. rewrite get_default_instance_spec.
  cbn [get_optimal_device get_local_configuration APIConfiguration posix].
  eexists. split; [apply new_spec|].
  apply read_attr_instance. cbn [attrs].
  rewrite lookup_insert_ne by done. rewrite lookup_insert_ne by done.
  rewrite lookup_insert_eq. do 2 f_equal.
  unfold configuration_get.
  assert (match conf with inl _ => dflt | inr c => c end
          !! "enfugue.engine.cache" = None) as -> by (by destruct conf).
  unfold stored_dir.
  cbn [os_path_expanduser posix].
  change (String.prefix "~" "~/.cache/enfugue/other") with true.
  cbv iota. by apply expanduser_home_slash.
Qed.

Lemma default_instance_default_cache_dir_witness :
  ∃ w, SupportModel.get_default_instance ada_gpu fresh = Return tt w
    ∧ read_attr "model_dir" w = Some (VStr "/home/ada/.cache/enfugue/other").
Proof.
  apply (default_instance_default_cache_dir ada_env
           (inl (OtherError "ConfigurationError" "unreadable")) ∅ cuda0
           "/home/ada"); reflexivity.
Defined.

(** ** What a new instance consists of *)

(** X6.  A newly constructed instance has exactly three instance
    attributes, [model_dir], [device] and [dtype], whatever object the
    world held before; so it holds no processor, [self.process] reads the
    class default [None], and construction records exactly the three
    assignments. *)
Theorem new_instance_attributes (pf : platform) (model_dir : string)
    (device : torch_device) (dtype : torch_dtype) (w : world) :
  ∃ w', SupportModel.new pf model_dir device dtype w = Return tt w'
    ∧ dom (attrs w') = ({["model_dir"; "device"; "dtype"]} : gset string)
    ∧ holds_process w' = false
    ∧ getattr "process" w' = Return VNone w'
    ∧ trace w'
      = (trace w ++ [EvSetAttr "model_dir" (VStr (stored_dir pf model_dir));
                     EvSetAttr "device" (VDevice device);
                     EvSetAttr "dtype" (VDtype dtype)])%list.
Proof.
  eexists. split; [apply new_spec|]. cbn [attrs trace].
  split; [|done].
  rewrite !dom_insert_L, dom_empty_L. set_solver.
Qed.

(** ** Normalising a path twice *)

(** X7.  On a POSIX system none of whose home directories is written
    with a leading ["~"], the path an instance stores is a fixed point of
    construction: building another instance from the stored [model_dir]
    stores the same path again. *)
Theorem model_dir_normalisation_idempotent (e : posixpath.env)
    (dev : exn + torch_device) (conf : exn + configuration)
    (dflt : configuration) (model_dir s : string)
    (device device' : torch_device) (dtype dtype' : torch_dtype) :
  (∀ p h, posixpath.userhome e p = Some h → String.prefix "~" h = false) →
  read_attr "model_dir"
    (state_of (SupportModel.new (posix e dev conf dflt) model_dir device dtype fresh))
  = Some (VStr s) →
  read_attr "model_dir"
    (state_of (SupportModel.new (posix e dev conf dflt) s device' dtype' fresh))
  = Some (VStr s).
Proof.
  intros Hhome. rewrite !new_spec. cbn [state_of].
  unfold read_attr. cbn [attrs].
  rewrite !lookup_insert_ne by done. rewrite !lookup_insert_eq.
  intros [= <-]. do 2 f_equal.
  unfold stored_dir at 1. cbn [os_path_expanduser posix].
  destruct (String.prefix "~" (stored_dir _ model_dir)) eqn:Hs; [|done].
  revert Hs. unfold stored_dir. cbn [os_path_expanduser posix].
  destruct (String.prefix "~" model_dir) eqn:Hp.
  - destruct (posixpath.userhome e model_dir) as [h|] eqn:Hu.
    + rewrite (expanduser_no_tilde e model_dir h Hp Hu (Hhome _ _ Hu)). done.
    + rewrite (expanduser_unknown e model_dir Hu).
      intros _. apply (expanduser_unknown e model_dir Hu).
  - by rewrite Hp.
Qed.

Lemma ada_env_homes p h :
  posixpath.userhome ada_env p = Some h → String.prefix "~" h = false.
Proof.
  unfold posixpath.userhome.
  destruct (Nat.eqb (posixpath.tilde_end p) 1).
  - by intros [= <-].
  - cbn [posixpath.getpwnam_dir ada_env].
    destruct (String.eqb _ "bob"); [by intros [= <-]|done].
Defined.

Lemma model_dir_normalisation_idempotent_witness :
  read_attr "model_dir"
    (state_of (SupportModel.new ada_cpu "/home/bob/x" cpu float32 fresh))
  = Some (VStr "/home/bob/x").
Proof.
  apply (model_dir_normalisation_idempotent ada_env (inr cpu)
           (inr {[ "enfugue.engine.cache" := "/var/cache/enfugue" ]}) ∅
           "~bob/x" "/home/bob/x" cuda0 cpu float16 float32 ada_env_homes).
  reflexivity.
Defined.

(** ** The base processor as a context manager *)

(** X8.  [with processor as p: body(p)] on a base
    [SupportModelImageProcessor] is the body run on the processor itself
    and nothing more: the same result in the same world, and an exception
    of the body is never suppressed, because [__exit__] returns [None]. *)
Theorem processor_with_is_its_body (kwargs : list (string * value))
    (exc_info : exn → list value) (body : value → M unit) (w : world) :
  let self := SupportModelImageProcessor.__init__ kwargs in
  with_object (SupportModelImageProcessor.__enter__ self)
              (SupportModelImageProcessor.__exit__ self) exc_info body w
  = body self w.
Proof.
  intros self. unfold with_object.
  unfold SupportModelImageProcessor.__enter__, SupportModelImageProcessor.__exit__.
  cbv [ret]. destruct (body self w) as [[] w'|e w']; reflexivity.
Qed.

(** X9.  A subclass that stores a base processor in [self.process] inside
    [with self.context():] and calls it gets [NotImplementedError] out of
    the whole statement, with the model left marked as loaded and still
    holding the processor, and without any [empty_cache()] or
    [gc.collect()] call. *)
Theorem base_processor_inside_context {Image : Type}
    (kwargs : list (string * value)) (image : Image)
    (exc_info : exn → list value) (w0 : world) :
  let p := SupportModelImageProcessor.__init__ kwargs in
  let body := fun _ : ref =>
    setattr "process" p;;
    with_object (SupportModelImageProcessor.__enter__ p)
                (SupportModelImageProcessor.__exit__ p) exc_info
                (fun q => SupportModelImageProcessor.__call__ q image;; ret tt) in
  ∃ w, with_ SupportModel.context body w0
       = Raise (NotImplementedError "Implementation did not override __call__") w
    ∧ read_attr "loaded" w = Some (VBool true)
    ∧ read_attr "process" w = Some p
    ∧ trace w = (trace w0 ++ [EvSetAttr "loaded" (VBool true);
                              EvSetAttr "process" p])%list.
Proof.
  intros p body. eexists. split.
  - unfold with_. rewrite enter_context.
    unfold body, with_object, SupportModelImageProcessor.__enter__,
      SupportModelImageProcessor.__exit__, SupportModelImageProcessor.__call__.
    cbv [mbind M_bind bind setattr ret raise truthy attrs trace].
    unfold contextmanager.__exit__, try_except, throw.
    cbv [mbind M_bind bind raise]. rewrite decide_True by done. reflexivity.
  - cbn [attrs trace]. split; [|split].
    + apply read_attr_instance. cbn [attrs].
      rewrite lookup_insert_ne by done. apply lookup_insert_eq.
    + apply read_attr_instance. apply lookup_insert_eq.
    + by rewrite <- app_assoc.
Qed.

(** ** Using the context again and again *)

Lemma calls_app f (t1 t2 : list event) :
  calls f (t1 ++ t2) = calls f t1 + calls f t2.
Proof. unfold calls. by rewrite List.filter_app, List.length_app. Qed.

Lemma read_device_entered w d :
  read_attr "device" w = Some (VDevice d) →
  read_attr "device" (entered w) = Some (VDevice d).
Proof.
  intros Hd. rewrite entered_unfold. unfold read_attr in *. cbn [attrs].
  by rewrite lookup_insert_ne.
Qed.

Lemma read_device_exit w d :
  read_attr "device" w = Some (VDevice d) →
  read_attr "device"
    (state_of (contextmanager.__exit__ SupportModel.cleanup None w))
  = Some (VDevice d).
Proof.
  intros Hd. unfold read_attr in *. by rewrite exit_attrs_other.
Qed.

(** The runtime calls one normal exit adds. *)
Lemma exit_calls w d f :
  read_attr "device" w = Some (VDevice d) →
  calls f (trace (state_of (contextmanager.__exit__ SupportModel.cleanup None w)))
  = calls f (trace w) + calls f (cache_release (type d) ++ [EvCall gc_collect]).
Proof.
  intros Hd. destruct (cleanup_spec _ _ Hd) as (w' & -> & Ht).
  cbn [state_of]. rewrite Ht, !calls_app. cbn [calls List.filter is_call List.length].
  destruct (holds_process w), f; cbn; lia.
Qed.

(** X10.  Let the body of [with self.context():] be one that, on a model
    whose device is [d], returns, leaves the device in place and itself
    makes no runtime call.  Then [n] uses of the context in a row all
    return, and together they call [gc.collect()] exactly [n] times,
    [torch.cuda.empty_cache()] [n] times on a ["cuda"] device and never
    otherwise, and [torch.mps.empty_cache()] [n] times on an ["mps"]
    device and never otherwise. *)
Theorem repeated_contexts_collect_each_time (body : ref → M unit)
    (d : torch_device) (n : nat) (w : world) :
  (∀ w1, read_attr "device" w1 = Some (VDevice d) →
     ∃ w2, body Self w1 = Return tt w2
       ∧ read_attr "device" w2 = Some (VDevice d)
       ∧ ∀ f, calls f (trace w2) = calls f (trace w1)) →
  read_attr "device" w = Some (VDevice d) →
  ∃ w', for_range n (with_ SupportModel.context body) w = Return tt w'
    ∧ read_attr "device" w' = Some (VDevice d)
    ∧ calls gc_collect (trace w') = calls gc_collect (trace w) + n
    ∧ calls torch_cuda_empty_cache (trace w')
      = calls torch_cuda_empty_cache (trace w)
        + (if String.eqb (type d) "cuda" then n else 0)
    ∧ calls torch_mps_empty_cache (trace w')
      = calls torch_mps_empty_cache (trace w)
        + (if String.eqb (type d) "cuda" then 0
           else if String.eqb (type d) "mps" then n else 0).
Proof.
  intros Hbody. revert w. induction n as [|n IH]; intros w Hd.
  - exists w. cbn [for_range]. split; [done|]. split; [done|].
    repeat split; destruct (String.eqb (type d) "cuda");
      try destruct (String.eqb (type d) "mps"); lia.
  - destruct (Hbody _ (read_device_entered _ _ Hd)) as (w2 & Hb & Hd2 & Hc2).
    pose proof (with_context_returns _ _ _ Hb) as Hwith.
    destruct (cleanup_spec _ _ Hd2) as (w3 & Hexit & _).
    pose proof (read_device_exit _ _ Hd2) as Hd3.
    pose proof (exit_calls _ _ gc_collect Hd2) as Hgc.
    pose proof (exit_calls _ _ torch_cuda_empty_cache Hd2) as Hcu.
    pose proof (exit_calls _ _ torch_mps_empty_cache Hd2) as Hmp.
    rewrite Hexit in Hwith, Hd3, Hgc, Hcu, Hmp. cbn [state_of] in *.
    rewrite !Hc2 in *.
    assert (∀ f, calls f (trace (entered w)) = calls f (trace w)) as He.
    { intros f. rewrite entered_unfold. cbn [trace]. rewrite calls_app.
      destruct f; cbn; lia. }
    rewrite !He in *.
    destruct (IH w3 Hd3) as (w' & Hrun & Hd' & Hgc' & Hcu' & Hmp').
    exists w'. split.
    { cbn [for_range]. cbv [mbind M_bind bind]. by rewrite Hwith. }
    split; [done|].
    rewrite Hgc', Hcu', Hmp', Hgc, Hcu, Hmp. unfold cache_release.
    destruct (String.eqb (type d) "cuda");
      [|destruct (String.eqb (type d) "mps")]; cbn; lia.
Qed.

Lemma repeated_contexts_collect_each_time_witness :
  ∃ w', for_range 3
          (with_ SupportModel.context (fun _ => setattr "process" (VProcessor [])))
          (state_of (SupportModel.new ada_cpu "~/models/foo" cuda0 float16 fresh))
        = Return tt w'
    ∧ calls gc_collect (trace w') = 3
    ∧ calls torch_cuda_empty_cache (trace w') = 3
    ∧ calls torch_mps_empty_cache (trace w') = 0.
Proof.
  destruct (repeated_contexts_collect_each_time
              (fun _ => setattr "process" (VProcessor [])) cuda0 3
              (state_of (SupportModel.new ada_cpu "~/models/foo" cuda0 float16 fresh)))
    as (w' & Hrun & _ & Hgc & Hcu & Hmp).
  - intros w1 Hd. eexists. split; [reflexivity|]. split.
    + unfold read_attr in *. cbn [attrs]. by rewrite lookup_insert_ne.
    + intros f. cbn [trace]. rewrite calls_app. destruct f; cbn; lia.
  - reflexivity.
  - exists w'. split; [exact Hrun|].
    split; [exact Hgc|]. split; [exact Hcu|exact Hmp].
Defined.
